(** * Team onboarding settings of the Gitpod dashboard

    A shallow embedding of the onboarding settings page
    (components/dashboard/src/teams): the settings update callback, the
    internal-link form, the welcome-message switch, the welcome-message
    editor, the preview and the join modal.

    React components are modelled by their state (one record per group of
    [useState] cells), their event handlers (functions on that state) and
    what they render (a small tree of nodes).  Asynchronous handlers are run
    to completion: a handler is an [Action] that records, in order, the
    calls it makes to the outside (the settings mutation, toasts, the
    console) and ends by returning or by throwing. *)

From stdpp Require Import base option strings list gmap.

Local Open Scope string_scope.
Local Open Scope list_scope.

(** ** JavaScript values the code relies on *)

Module Js.

(** [new Error(msg)]: only [error.message] is ever read. *)
Record Error := mkError { message : string }.

(** Truthiness of a [string | undefined]: [undefined] and the empty
    string are falsy. *)
Definition truthy (s : option string) : bool :=
  match s with
  | None => false
  | Some s => negb (String.eqb s "")
  end.

(** [a ?? b] *)
Definition nullish {A} (a : option A) (b : A) : A :=
  match a with
  | Some x => x
  | None => b
  end.

(** One key of an object spread [{...base, ...upd}]: a key that [upd]
    carries wins, also when its value is [undefined]. *)
Definition spread_key {A} (base : option A) (upd : option (option A)) : option A :=
  match upd with
  | Some v => v
  | None => base
  end.

End Js.

(** ** Data model *)

(** [OnboardingSettings_WelcomeMessage]. *)
Record WelcomeMessage := mkWelcomeMessage {
  enabled : bool;
  message : option string;
  featuredMemberId : option string;
  featuredMemberResolvedAvatarUrl : option string;
}.

(** The object literal handed to [handleUpdateWelcomeMessage]: [enabled] is
    always written, each other key may be left out ([None]) or be written,
    possibly as [undefined] ([Some None]). *)
Record WelcomeMessageInit := mkWelcomeMessageInit {
  init_enabled : bool;
  init_message : option (option string);
  init_featuredMemberId : option (option string);
  init_featuredMemberResolvedAvatarUrl : option (option string);
}.

(** [OnboardingSettings]; every key may be missing from an object literal. *)
Record OnboardingSettings := mkOnboardingSettings {
  internalLink : option string;
  welcomeMessage : option WelcomeMessage;
  recommendedRepositories : option (list string);
}.

Record Organization := mkOrganization { id : string }.

(** Optional chaining, [o?.f]: [undefined] when [o] is, the field otherwise. *)
Notation "o ?. f" := (mbind (M := option) f o)
  (at level 25, left associativity, format "o ?. f").

(** How a handler ends: it returns, or an exception escapes it. *)
Inductive Outcome (A : Type) :=
| Returned (a : A)
| Thrown (e : Js.Error).

Arguments Returned {A} a.
Arguments Thrown {A} e.

Section Settings.

(** The other top-level fields of [OrganizationSettings] are declared in
    the public API package; their values are kept abstract and the fields
    are kept by name. *)
Context {V : Type}.

(** [OrganizationSettings], and [Partial<PlainMessage<OrganizationSettings>>]:
    a key that is left out is [None] (resp. not in [otherFields]). *)
Record OrganizationSettings := mkOrganizationSettings {
  onboardingSettings : option OnboardingSettings;
  otherFields : gmap string V;
}.

(** What a handler does to the outside, in order. *)
Inductive Effect :=
| MutateAsync (arg : OrganizationSettings)  (* updateTeamSettings.mutateAsync(arg) *)
| Mutate (arg : OrganizationSettings)       (* updateTeamSettings.mutate(arg) *)
| Toast (msg : string)                      (* toast(msg) *)
| ConsoleError (e : Js.Error).              (* console.error(e) *)

(** A handler run to completion: its trace and how it ended. *)
Definition Action (A : Type) : Type := list Effect * Outcome A.

Definition ret {A} (a : A) : Action A := ([], Returned a).

Definition throw {A} (e : Js.Error) : Action A := ([], Thrown e).

Definition emit (ev : Effect) : Action unit := ([ev], Returned tt).

Definition bind {A B} (m : Action A) (k : A → Action B) : Action B :=
  match m with
  | (tr, Returned a) => let '(tr', r) := k a in (tr ++ tr', r)
  | (tr, Thrown e) => (tr, Thrown e)
  end.

(** [try { m } catch (error) { h error }] *)
Definition try_catch {A} (m : Action A) (h : Js.Error → Action A) : Action A :=
  match m with
  | (tr, Thrown e) => let '(tr', r) := h e in (tr ++ tr', r)
  | done => done
  end.

Definition trace {A} (m : Action A) : list Effect := fst m.
Definition outcome {A} (m : Action A) : Outcome A := snd m.

(** A promise that is started and not awaited: its calls happen, its
    rejection does not reach the caller. *)
Definition detach {A} (m : Action A) : Action unit := (trace m, Returned tt).

(** The settings objects submitted to the remote write, in order. *)
Definition writes (tr : list Effect) : list OrganizationSettings :=
  omap (λ ev, match ev with
              | MutateAsync arg | Mutate arg => Some arg
              | _ => None
              end) tr.

(** The remote settings after a trace: only a submitted write reaches the
    store; how the store folds a write in is its own business
    ([store_update]). *)
Definition remote_after {R} (store_update : R → OrganizationSettings → R)
    (tr : list Effect) (remote : R) : R :=
  foldl store_update remote (writes tr).

(** What the hooks of the page hand to its callbacks: [useCurrentOrg().data],
    [useIsOwner()], the [data] of [useOrgSettingsQuery()], and how the
    remote write answers ([None]: it resolves, [Some e]: it rejects with
    [e]). *)
Record Env := mkEnv {
  org : option Organization;
  isOwner : bool;
  settings : option OrganizationSettings;
  mutationError : OrganizationSettings → option Js.Error;
}.

(** [updateTeamSettings.mutateAsync(arg)] awaited. *)
Definition mutateAsync (env : Env) (arg : OrganizationSettings) : Action unit :=
  ([MutateAsync arg],
   match mutationError env arg with
   | Some e => Thrown e
   | None => Returned tt
   end).

(** [{ ...settings, ...newSettings }] *)
Definition spread_settings (settings : option OrganizationSettings)
    (newSettings : OrganizationSettings) : OrganizationSettings :=
  match settings with
  | None => newSettings
  | Some s =>
      {| onboardingSettings :=
           match onboardingSettings newSettings with
           | Some o => Some o
           | None => onboardingSettings s
           end;
         otherFields := otherFields newSettings ∪ otherFields s |}
  end.

(** [settings?.[k]] for one of the other top-level fields. *)
Definition topField (k : string) (settings : option OrganizationSettings) : option V :=
  settings ?. (λ s, otherFields s !! k).

End Settings.

Arguments OrganizationSettings : clear implicits.
Arguments Effect : clear implicits.
Arguments Action : clear implicits.
Arguments Env : clear implicits.

Declare Scope action_scope.
Delimit Scope action_scope with action.
Notation "m ;; k" := (bind m (λ _, k))
  (at level 100, k at level 200, right associativity) : action_scope.

(** ** TeamOnboarding.tsx: the page *)

Module TeamOnboarding.
Section WithFields.
Context {V : Type}.
Local Open Scope action_scope.

Definition NoOrganizationError : Js.Error := Js.mkError "no organization selected".
Definition PermissionError : Js.Error :=
  Js.mkError "no organization settings change permission".

(** [org?.id] is truthy. *)
Definition has_org_id (env : Env V) : bool :=
  Js.truthy (id <$> org env).

(** [options?: { throwMutateError?: boolean }] *)
Record Options := mkOptions { throwMutateError : option bool }.

Definition wants_throw (options : option Options) : bool :=
  Js.nullish (options ?. throwMutateError) false.

Definition handleUpdateTeamSettings (env : Env V)
    (newSettings : OrganizationSettings V) (options : option Options) : Action V unit :=
  if negb (has_org_id env) then throw NoOrganizationError
  else if negb (isOwner env) then throw PermissionError
  else
    try_catch
      (mutateAsync env (spread_settings (settings env) newSettings) ;;
       emit (Toast "Organization settings updated"))
      (λ error,
         if wants_throw options then throw error
         else
           emit (Toast ("Failed to update organization settings: " +:+ Js.message error)) ;;
           emit (ConsoleError error)).

(** [{ onboardingSettings: { internalLink } }] *)
Definition internalLinkSettings (internalLink : option string) : OrganizationSettings V :=
  {| onboardingSettings :=
       Some {| internalLink := internalLink;
               welcomeMessage := None;
               recommendedRepositories := None |};
     otherFields := ∅ |}.

(** The page's [useState] cell behind the internal-link input. *)
Record State := mkState { internalLinkInput : option string }.

(** [useState<string | undefined>(undefined)] *)
Definition initialState : State := {| internalLinkInput := None |}.

Definition setInternalLink (v : option string) (st : State) : State :=
  {| internalLinkInput := v |}.

Definition handleUpdateInternalLink (env : Env V) (st : State) : Action V unit :=
  handleUpdateTeamSettings env (internalLinkSettings (internalLinkInput st)) None.

(** The body of [useEffect(() => {...}, [settings])]. *)
Definition syncInternalLink (settings : option (OrganizationSettings V)) (st : State) : State :=
  match settings with
  | Some s => setInternalLink (onboardingSettings s ?. internalLink) st
  | None => st
  end.

(** What happens to the page between two renders. *)
Inductive Event :=
| SettingsChanged (settings : option (OrganizationSettings V))
    (* the query hands a new [settings] object: the effect's dependency changed *)
| Rerender
    (* a render with the same [settings] object: the effect is skipped *)
| Typed (v : string).
    (* onChange of the text input *)

Definition step (st : State) (ev : Event) : State :=
  match ev with
  | SettingsChanged s => syncInternalLink s st
  | Rerender => st
  | Typed v => setInternalLink (Some v) st
  end.

Definition run (evs : list Event) (st : State) : State := foldl step st evs.

(** Events that hand the page no settings object. *)
Definition without_settings (ev : Event) : bool :=
  match ev with
  | Rerender | SettingsChanged None => true
  | _ => false
  end.

End WithFields.

Arguments Event : clear implicits.

End TeamOnboarding.

(** ** onboarding/WelcomeMessageEditor.tsx: the editor modal *)

Module WelcomeMessageEditor.
Section WithFields.
Context {V : Type}.

(** The two [useState] cells of the modal ([message] and
    [featuredMemberId] in the source). *)
Record Draft := mkDraft {
  draftMessage : option string;
  draftFeaturedMemberId : option string;
}.

(** [useState(settings?.message)], [useState(settings?.featuredMemberId)]:
    the initial values, read when the component is mounted. *)
Definition initialDraft (settings : option WelcomeMessage) : Draft :=
  {| draftMessage := settings ?. message;
     draftFeaturedMemberId := settings ?. featuredMemberId |}.

Definition setMessage (v : option string) (d : Draft) : Draft :=
  {| draftMessage := v; draftFeaturedMemberId := draftFeaturedMemberId d |}.

Definition setFeaturedMemberId (v : option string) (d : Draft) : Draft :=
  {| draftMessage := draftMessage d; draftFeaturedMemberId := v |}.

(** [{ message, featuredMemberId, enabled: settings?.enabled ?? false }] *)
Definition draftSettings (settings : option WelcomeMessage) (d : Draft) : WelcomeMessageInit :=
  {| init_enabled := Js.nullish (enabled <$> settings) false;
     init_message := Some (draftMessage d);
     init_featuredMemberId := Some (draftFeaturedMemberId d);
     init_featuredMemberResolvedAvatarUrl := None |}.

(** The form's [onSubmit]; [handleUpdateWelcomeMessage] is a prop. *)
Definition updateWelcomeMessage
    (handleUpdateWelcomeMessage : WelcomeMessageInit → Action V unit)
    (settings : option WelcomeMessage) (d : Draft) : Action V unit :=
  handleUpdateWelcomeMessage (draftSettings settings d).

End WithFields.
End WelcomeMessageEditor.

(** ** onboarding/WelcomeMessageConfigurationField.tsx: switch, editor, preview *)

Module WelcomeMessageConfigurationField.
Section WithFields.
Context {V : Type}.

(** [settings?.onboardingSettings?.welcomeMessage] *)
Definition remoteWelcomeMessage (settings : option (OrganizationSettings V))
    : option WelcomeMessage :=
  settings ?. onboardingSettings ?. welcomeMessage.

(** [{ ...settings?.onboardingSettings?.welcomeMessage, ...newSettings }] *)
Definition spread_welcomeMessage (base : option WelcomeMessage)
    (newSettings : WelcomeMessageInit) : WelcomeMessage :=
  {| enabled := init_enabled newSettings;
     message := Js.spread_key (base ?. message) (init_message newSettings);
     featuredMemberId :=
       Js.spread_key (base ?. featuredMemberId) (init_featuredMemberId newSettings);
     featuredMemberResolvedAvatarUrl :=
       Js.spread_key (base ?. featuredMemberResolvedAvatarUrl)
         (init_featuredMemberResolvedAvatarUrl newSettings) |}.

(** The argument [handleUpdateWelcomeMessage] builds for
    [handleUpdateTeamSettings]. *)
Definition welcomeMessageSettings (settings : option (OrganizationSettings V))
    (newSettings : WelcomeMessageInit) : OrganizationSettings V :=
  {| onboardingSettings :=
       Some {| internalLink := None;
               welcomeMessage :=
                 Some (spread_welcomeMessage (remoteWelcomeMessage settings) newSettings);
               recommendedRepositories :=
                 Some (Js.nullish
                         (settings ?. onboardingSettings ?. recommendedRepositories) []) |};
     otherFields := ∅ |}.

(** The component: [handleUpdateTeamSettings] is its only prop, [settings]
    is the [data] of its own [useOrgSettingsQuery()]. *)
Section Component.
Variable handleUpdateTeamSettings :
  OrganizationSettings V → option TeamOnboarding.Options → Action V unit.
Variable settings : option (OrganizationSettings V).

Definition handleUpdateWelcomeMessage (newSettings : WelcomeMessageInit) : Action V unit :=
  handleUpdateTeamSettings (welcomeMessageSettings settings newSettings) None.

Definition setupNotice : string := "Please set up a welcome message first.".

(** [{ enabled: checked }] *)
Definition toggleSettings (checked : bool) : WelcomeMessageInit :=
  {| init_enabled := checked;
     init_message := None;
     init_featuredMemberId := None;
     init_featuredMemberResolvedAvatarUrl := None |}.

(** The switch's [onCheckedChange]; the promise of
    [handleUpdateWelcomeMessage] is not awaited. *)
Definition onCheckedChange (checked : bool) : Action V unit :=
  if checked && negb (Js.truthy (remoteWelcomeMessage settings ?. message))
  then emit (Toast setupNotice)
  else detach (handleUpdateWelcomeMessage (toggleSettings checked)).

(** The component's own [useState] cell and the draft of the editor
    modal it always renders. *)
Record State := mkState {
  welcomeMessageEditorOpen : bool;
  draft : WelcomeMessageEditor.Draft;
}.

(** First render: the editor modal is mounted closed, its draft cells
    are initialised from the settings of that render. *)
Definition mount : State :=
  {| welcomeMessageEditorOpen := false;
     draft := WelcomeMessageEditor.initialDraft (remoteWelcomeMessage settings) |}.

Definition setWelcomeMessageEditorOpen (open : bool) (st : State) : State :=
  {| welcomeMessageEditorOpen := open; draft := draft st |}.

Definition onDraft (f : WelcomeMessageEditor.Draft → WelcomeMessageEditor.Draft)
    (st : State) : State :=
  {| welcomeMessageEditorOpen := welcomeMessageEditorOpen st; draft := f (draft st) |}.

Inductive Event :=
| ClickEdit                        (* the preview's Edit button *)
| ClickCancel                      (* the modal's Cancel button *)
| CloseModal                       (* the modal's onClose: close button, overlay, Escape *)
| ChangeMessage (v : string)       (* the textarea's onChange *)
| PickMember (v : option string)   (* the avatar input's setFeaturedMemberId *)
| Submit                           (* the form's onSubmit *)
| Switch (checked : bool).         (* the switch's onCheckedChange *)

Definition step (st : State) (ev : Event) : State * list (Effect V) :=
  match ev with
  | ClickEdit => (setWelcomeMessageEditorOpen true st, [])
  | ClickCancel => (setWelcomeMessageEditorOpen false st, [])
  | CloseModal => (setWelcomeMessageEditorOpen false st, [])
  | ChangeMessage v => (onDraft (WelcomeMessageEditor.setMessage (Some v)) st, [])
  | PickMember v => (onDraft (WelcomeMessageEditor.setFeaturedMemberId v) st, [])
  | Submit =>
      (st, trace (WelcomeMessageEditor.updateWelcomeMessage handleUpdateWelcomeMessage
                    (remoteWelcomeMessage settings) (draft st)))
  | Switch checked => (st, trace (onCheckedChange checked))
  end.

(** A run of events under one settings snapshot, with the trace of all
    the handlers. *)
Fixpoint run (evs : list Event) (st : State) : State * list (Effect V) :=
  match evs with
  | [] => (st, [])
  | ev :: evs =>
      let '(st1, tr1) := step st ev in
      let '(st2, tr2) := run evs st1 in
      (st2, tr1 ++ tr2)
  end.

(** Events handled inside the component: neither the form's submit
    nor the switch. *)
Definition is_local (ev : Event) : bool :=
  match ev with
  | Submit | Switch _ => false
  | _ => true
  end.

End Component.

End WithFields.
End WelcomeMessageConfigurationField.

(** ** onboarding/WelcomeMessagePreview.tsx: the preview *)

Module WelcomeMessagePreview.

#[local] Set Warnings "-register-all".

(** The elements the component can put on the page. *)
Inductive Node :=
| Div (children : list Node)
| Heading2 (text : string)
| Subheading (text : string)
| Button (label : string) (disabled : option bool)
| Img (src : string)
| Markdown (source : string).

Definition gitpodWelcomeSubheading : string :=
  "Gitpod’s sandboxed, ephemeral development environments enable you to use your existing tools without worrying about vulnerabilities impacting their local machines.".

(** [setWelcomeMessageEditorOpen] is only tested for presence here. *)
Record Props := mkProps {
  disabled : option bool;
  hideHeader : option bool;
  setWelcomeMessageEditorOpen : bool;
}.

(** [{cond && <element/>}] on a [string | undefined]. *)
Definition when_text (s : option string) (k : string → Node) : list Node :=
  match s with
  | Some s => if Js.truthy (Some s) then [k s] else []
  | None => []
  end.

Definition render {V} (settings : option (OrganizationSettings V)) (props : Props) : Node :=
  let avatarUrl :=
    settings ?. onboardingSettings ?. welcomeMessage ?. featuredMemberResolvedAvatarUrl in
  let welcomeMessage := settings ?. onboardingSettings ?. welcomeMessage ?. message in
  Div
    ([Div ((if negb (Js.nullish (hideHeader props) false)
            then [Heading2 "Welcome to Gitpod"] else [])
           ++ (if setWelcomeMessageEditorOpen props
               then [Button "Edit" (disabled props)] else []));
      Subheading gitpodWelcomeSubheading]
     ++ when_text welcomeMessage
          (λ welcomeMessage, Div (when_text avatarUrl Img ++ [Markdown welcomeMessage]))).

(** All the elements of a rendered tree, parents before children. *)
Fixpoint elements (n : Node) : list Node :=
  n :: match n with
       | Div children => concat (map elements children)
       | _ => []
       end.

Definition is_markdown (n : Node) : bool :=
  match n with Markdown _ => true | _ => false end.

Definition is_img (n : Node) : bool :=
  match n with Img _ => true | _ => false end.

(** The message block is the [div] that holds the markdown body. *)
Definition is_message_block (n : Node) : bool :=
  match n with
  | Div children => existsb is_markdown children
  | _ => false
  end.

End WelcomeMessagePreview.

(** ** TeamOnboarding.tsx, second part: the join modal *)

Module OrganizationJoinModal.

(** [localStorage]: [None] when [storageAvailable("localStorage")] is
    false, the stored items otherwise. *)
Abbreviation Storage := (option (gmap string string)).

Definition pendingKey : string := "newUserOnboardingPending".

Record State := mkState { orgOnboardingPending : bool }.

(** The [useMemo]: [undefined] without storage. *)
Definition initialOrgOnboardingPending (storage : Storage) : option bool :=
  match storage with
  | Some items => Some (bool_decide (items !! pendingKey = Some "true"))
  | None => None
  end.

(** [useState(initialOrgOnboardingPending ?? false)] *)
Definition mount (storage : Storage) : State :=
  {| orgOnboardingPending := Js.nullish (initialOrgOnboardingPending storage) false |}.

Definition dismissOrgOnboardingPending (st : State * Storage) : State * Storage :=
  ({| orgOnboardingPending := false |}, delete pendingKey <$> st.2).

(** [orgSettings?.onboardingSettings?.welcomeMessage?.enabled] is truthy. *)
Definition welcomeEnabled {V} (orgSettings : option (OrganizationSettings V)) : bool :=
  Js.nullish (enabled <$> orgSettings ?. onboardingSettings ?. welcomeMessage) false.

(** The [useEffect] body. *)
Definition effect {V} (orgSettings : option (OrganizationSettings V))
    (st : State * Storage) : State * Storage :=
  if negb (welcomeEnabled orgSettings) then dismissOrgOnboardingPending st else st.

(** What the component returns: [null], or the modal with its
    [visible] prop and the preview in its body (the preview reads the
    settings query itself; it is handed the same settings here). *)
Record Modal := mkModal {
  visible : bool;
  body : WelcomeMessagePreview.Node;
}.

Definition render {V} (orgSettings : option (OrganizationSettings V)) (st : State)
    : option Modal :=
  if negb (welcomeEnabled orgSettings) then None
  else Some {| visible := orgOnboardingPending st;
               body := WelcomeMessagePreview.render orgSettings
                         {| WelcomeMessagePreview.disabled := None;
                            WelcomeMessagePreview.hideHeader := Some true;
                            WelcomeMessagePreview.setWelcomeMessageEditorOpen := false |} |}.

(** Mounting the component: the first render, then its effect. *)
Definition mounted {V} (orgSettings : option (OrganizationSettings V)) (storage : Storage)
    : State * Storage :=
  effect orgSettings (mount storage, storage).

(** The component shows the welcome modal. *)
Definition shows {V} (orgSettings : option (OrganizationSettings V)) (st : State) : bool :=
  match render orgSettings st with
  | Some m => visible m
  | None => false
  end.

End OrganizationJoinModal.

(** ** The earlier page: the switch calls the mutation itself *)

Module Inline.
Section WithFields.
Context {V : Type}.

Definition setupNotice : string := "Please set up a welcome message first.".

(** The object literal the switch hands to [updateTeamSettings.mutate]. *)
Definition toggleSettings (settings : option (OrganizationSettings V)) (checked : bool)
    : OrganizationSettings V :=
  {| onboardingSettings :=
       Some {| internalLink := None;
               welcomeMessage :=
                 Some {| enabled := checked;
                         message :=
                           settings ?. onboardingSettings ?. welcomeMessage ?. message;
                         featuredMemberId :=
                           settings ?. onboardingSettings ?. welcomeMessage
                             ?. featuredMemberId;
                         featuredMemberResolvedAvatarUrl := None |};
               recommendedRepositories := None |};
     otherFields := ∅ |}.

(** The switch's [onCheckedChange]. *)
Definition onCheckedChange (settings : option (OrganizationSettings V)) (checked : bool)
    : Action V unit :=
  if checked
     && negb (Js.truthy (settings ?. onboardingSettings ?. welcomeMessage ?. message))
  then emit (Toast setupNotice)
  else emit (Mutate (toggleSettings settings checked)).

(** The object literal the inline editor hands to [handleUpdateTeamSettings]:
    [{ onboardingSettings: { welcomeMessage: { message, featuredMemberId,
    enabled: settings?.enabled ?? false } } }]. *)
Definition draftSettings (settings : option WelcomeMessage)
    (d : WelcomeMessageEditor.Draft) : OrganizationSettings V :=
  {| onboardingSettings :=
       Some {| internalLink := None;
               welcomeMessage :=
                 Some {| enabled := Js.nullish (enabled <$> settings) false;
                         message := WelcomeMessageEditor.draftMessage d;
                         featuredMemberId := WelcomeMessageEditor.draftFeaturedMemberId d;
                         featuredMemberResolvedAvatarUrl := None |};
               recommendedRepositories := None |};
     otherFields := ∅ |}.

(** The inline editor's [onSubmit]. *)
Definition updateWelcomeMessage
    (handleUpdateTeamSettings :
       OrganizationSettings V → option TeamOnboarding.Options → Action V unit)
    (settings : option WelcomeMessage) (d : WelcomeMessageEditor.Draft) : Action V unit :=
  handleUpdateTeamSettings (draftSettings settings d) None.

End WithFields.
End Inline.

(** ** The earlier page: the avatar menu of the editor *)

Module OrgMemberInput.

(** What the menu reads of an organization member. *)
Record OrganizationMember := mkOrganizationMember {
  userId : string;
  fullName : string;
  avatarUrl : option string;
}.

(** The editor's draft (written through [setFeaturedMemberId]) and the
    menu's own [avatarUrl] cell. *)
Record State := mkState {
  draft : WelcomeMessageEditor.Draft;
  avatarUrlCell : option string;
}.

(** The editor and its menu are mounted together:
    [useState(settings?.featuredMemberResolvedAvatarUrl)]. *)
Definition mount (settings : option WelcomeMessage) : State :=
  {| draft := WelcomeMessageEditor.initialDraft settings;
     avatarUrlCell := settings ?. featuredMemberResolvedAvatarUrl |}.

(** The entries of the menu: "Disable image", then one per member. *)
Inductive Item :=
| DisableImage
| MemberItem (member : OrganizationMember).

(** [members?.map(...)] after the fixed first entry. *)
Definition items (members : option (list OrganizationMember)) : list Item :=
  DisableImage :: match members with
                  | Some ms => map MemberItem ms
                  | None => []
                  end.

(** The [onClick] of an entry. *)
Definition onClick (item : Item) (st : State) : State :=
  match item with
  | DisableImage =>
      {| draft := WelcomeMessageEditor.setFeaturedMemberId None (draft st);
         avatarUrlCell := None |}
  | MemberItem member =>
      {| draft := WelcomeMessageEditor.setFeaturedMemberId (Some (userId member)) (draft st);
         avatarUrlCell := avatarUrl member |}
  end.

Definition clicks (its : list Item) (st : State) : State :=
  foldl (λ st item, onClick item st) st its.

(** The trigger shows the photo ([avatarUrl ? <img/> : <div/>]). *)
Definition showsPhoto (st : State) : bool := Js.truthy (avatarUrlCell st).

End OrgMemberInput.

(** ** The props the components give their controls *)

Module Controls.

(** [<SwitchInputField checked=... disabled=... />] *)
Record SwitchProps := mkSwitchProps {
  switchChecked : bool;
  switchDisabled : bool;
}.

(** [<LoadingButton loading=... disabled=... />] *)
Record LoadingButtonProps := mkLoadingButtonProps {
  loading : bool;
  buttonDisabled : bool;
}.

(** The internal-link input:
    [disabled={updateTeamSettings.isLoading || !isOwner}]. *)
Definition linkInputDisabled (isOwner isLoading : bool) : bool :=
  isLoading || negb isOwner.

(** The Save button of the internal-link form and the one of the editor:
    [loading={isLoading} disabled={!isOwner}]. *)
Definition saveButton (isOwner isLoading : bool) : LoadingButtonProps :=
  {| loading := isLoading; buttonDisabled := negb isOwner |}.

(** The switch of the configuration field. *)
Definition switch {V} (isOwner isLoading : bool)
    (settings : option (OrganizationSettings V)) : SwitchProps :=
  {| switchChecked :=
       Js.nullish (enabled <$> settings ?. onboardingSettings ?. welcomeMessage) false;
     switchDisabled := negb isOwner || isLoading |}.

(** The props the configuration field gives its preview. *)
Definition previewProps (isOwner isLoading : bool) : WelcomeMessagePreview.Props :=
  {| WelcomeMessagePreview.disabled := Some (negb isOwner || isLoading);
     WelcomeMessagePreview.hideHeader := None;
     WelcomeMessagePreview.setWelcomeMessageEditorOpen := true |}.

End Controls.

(** ** Sample inputs *)

Module Sample.

Definition acme : Organization := {| id := "org-acme" |}.

Definition greeting : WelcomeMessage :=
  {| enabled := true;
     message := Some "Welcome aboard!";
     featuredMemberId := Some "m1";
     featuredMemberResolvedAvatarUrl := Some "https://example.com/a1.png" |}.

(** A settings snapshot with a welcome message, a recommended repository
    and one other top-level field. *)
Definition snapshot : OrganizationSettings string :=
  {| onboardingSettings :=
       Some {| internalLink := Some "https://intra.example.com/old";
               welcomeMessage := Some greeting;
               recommendedRepositories := Some ["repo-1"] |};
     otherFields := {[ "defaultRole" := "member" ]} |}.

(** The snapshot a refetch delivers after the welcome message was
    switched off: the internal link is the same. *)
Definition snapshot_refetched : OrganizationSettings string :=
  {| onboardingSettings :=
       Some {| internalLink := Some "https://intra.example.com/old";
               welcomeMessage :=
                 Some {| enabled := false;
                         message := Some "Welcome aboard!";
                         featuredMemberId := Some "m1";
                         featuredMemberResolvedAvatarUrl :=
                           Some "https://example.com/a1.png" |};
               recommendedRepositories := Some ["repo-1"] |};
     otherFields := {[ "defaultRole" := "member" ]} |}.

(** A snapshot without a welcome message text, with a resolved avatar. *)
Definition snapshot_blank : OrganizationSettings string :=
  {| onboardingSettings :=
       Some {| internalLink := None;
               welcomeMessage :=
                 Some {| enabled := false;
                         message := Some "";
                         featuredMemberId := Some "m1";
                         featuredMemberResolvedAvatarUrl :=
                           Some "https://example.com/a1.png" |};
               recommendedRepositories := None |};
     otherFields := ∅ |}.

(** The members of [acme]: one with a photo, one without. *)
Definition ada : OrgMemberInput.OrganizationMember :=
  {| OrgMemberInput.userId := "m1"; OrgMemberInput.fullName := "Ada";
     OrgMemberInput.avatarUrl := Some "https://example.com/a1.png" |}.

Definition bob : OrgMemberInput.OrganizationMember :=
  {| OrgMemberInput.userId := "m2"; OrgMemberInput.fullName := "Bob";
     OrgMemberInput.avatarUrl := None |}.

Definition timeout : Js.Error := Js.mkError "deadline exceeded".

(** An owner of [acme] whose writes all resolve. *)
Definition owner : Env string :=
  {| org := Some acme; isOwner := true; settings := Some snapshot;
     mutationError := λ _, None |}.

(** The same owner, with every write rejected. *)
Definition owner_offline : Env string :=
  {| org := Some acme; isOwner := true; settings := Some snapshot;
     mutationError := λ _, Some timeout |}.

(** An owner of [acme] before any welcome message was written. *)
Definition owner_blank : Env string :=
  {| org := Some acme; isOwner := true; settings := Some snapshot_blank;
     mutationError := λ _, None |}.

(** A member of [acme] who is not an owner. *)
Definition member : Env string :=
  {| org := Some acme; isOwner := false; settings := Some snapshot;
     mutationError := λ _, None |}.

(** No organization is selected, and so the user owns none. *)
Definition visitor : Env string :=
  {| org := None; isOwner := false; settings := None;
     mutationError := λ _, None |}.

End Sample.

(** * Properties *)

(** ** The update callback *)

Section Update.
Context {V : Type}.
Implicit Types (env : Env V) (newSettings : OrganizationSettings V).
Import TeamOnboarding.

Lemma spread_settings_onboarding_given snapshot newSettings o :
  onboardingSettings newSettings = Some o →
  onboardingSettings (spread_settings snapshot newSettings) = Some o.
Proof.
  intros Ho. destruct snapshot as [s|]; simpl; [|done]. by rewrite Ho.
Qed.

Lemma spread_settings_onboarding_omitted snapshot newSettings :
  onboardingSettings newSettings = None →
  onboardingSettings (spread_settings snapshot newSettings)
  = snapshot ?. onboardingSettings.
Proof.
  intros Ho. destruct snapshot as [s|]; simpl; [|done]. by rewrite Ho.
Qed.

Lemma spread_settings_field_given snapshot newSettings k v :
  otherFields newSettings !! k = Some v →
  otherFields (spread_settings snapshot newSettings) !! k = Some v.
Proof.
  intros Hk. destruct snapshot as [s|]; simpl; [|done].
  by apply lookup_union_Some_l.
Qed.

Lemma spread_settings_field_omitted snapshot newSettings k :
  otherFields newSettings !! k = None →
  otherFields (spread_settings snapshot newSettings) !! k = topField k snapshot.
Proof.
  intros Hk. destruct snapshot as [s|]; simpl; [|done].
  by rewrite lookup_union_r.
Qed.

(** Past its two guards the callback submits the merged object once and
    then follows the answer of the remote write. *)
Lemma handleUpdateTeamSettings_allowed env newSettings options :
  has_org_id env = true →
  isOwner env = true →
  handleUpdateTeamSettings env newSettings options =
    let merged := spread_settings (settings env) newSettings in
    match mutationError env merged with
    | None => ([MutateAsync merged; Toast "Organization settings updated"], Returned tt)
    | Some e =>
        if wants_throw options then ([MutateAsync merged], Thrown e)
        else ([MutateAsync merged;
               Toast ("Failed to update organization settings: " +:+ Js.message e);
               ConsoleError e], Returned tt)
    end.
Proof.
  intros Horg Howner. unfold handleUpdateTeamSettings, mutateAsync.
  rewrite Horg, Howner. simpl.
  destruct (mutationError env _) as [e|]; simpl; [|done].
  by destruct (wants_throw options).
Qed.

Lemma handleUpdateTeamSettings_writes env newSettings options :
  has_org_id env = true →
  isOwner env = true →
  writes (trace (handleUpdateTeamSettings env newSettings options))
  = [spread_settings (settings env) newSettings].
Proof.
  intros Horg Howner. rewrite handleUpdateTeamSettings_allowed by done. simpl.
  destruct (mutationError env _); [destruct (wants_throw options)|]; done.
Qed.

Lemma handleUpdateTeamSettings_refused env newSettings options :
  has_org_id env = false ∨ isOwner env = false →
  trace (handleUpdateTeamSettings env newSettings options) = [].
Proof.
  unfold handleUpdateTeamSettings.
  intros [H|H]; destruct (has_org_id env); simplify_eq/=; try done.
  by rewrite H.
Qed.

End Update.

Import TeamOnboarding.

(** C1 (as amended).  [update()] merges at the top level only: past the
    guards it submits exactly one object, in which a top-level field omitted
    from the partial keeps its snapshot value and a top-level field given in
    the partial is taken whole from the partial.  So the internal-link form
    submits an object whose [onboardingSettings] is the partial's own
    [{internalLink: v}], with no welcome message and no recommended
    repositories carried over from the snapshot, and whose other top-level
    fields are the snapshot's. *)
Theorem update_merges_top_level_fields {V} (env : Env V)
    (newSettings : OrganizationSettings V) (options : option Options) (st : State) :
  has_org_id env = true →
  isOwner env = true →
  (∃ merged,
      writes (trace (handleUpdateTeamSettings env newSettings options)) = [merged]
      ∧ (∀ k, otherFields newSettings !! k = None →
              otherFields merged !! k = topField k (settings env))
      ∧ (∀ k v, otherFields newSettings !! k = Some v →
                otherFields merged !! k = Some v)
      ∧ (onboardingSettings newSettings = None →
         onboardingSettings merged = settings env ?. onboardingSettings)
      ∧ (∀ o, onboardingSettings newSettings = Some o →
              onboardingSettings merged = Some o))
  ∧ (∃ merged,
        writes (trace (handleUpdateInternalLink env st)) = [merged]
        ∧ onboardingSettings merged
          = Some {| internalLink := internalLinkInput st;
                    welcomeMessage := None;
                    recommendedRepositories := None |}
        ∧ ∀ k, otherFields merged !! k = topField k (settings env)).
Proof.
  intros Horg Howner. split.
  - exists (spread_settings (settings env) newSettings).
    split; [by apply handleUpdateTeamSettings_writes|].
    split; [intros k; apply spread_settings_field_omitted|].
    split; [intros k v; apply spread_settings_field_given|].
    split; [apply spread_settings_onboarding_omitted|].
    intros o. apply spread_settings_onboarding_given.
  - exists (spread_settings (settings env) (internalLinkSettings (internalLinkInput st))).
    split; [by apply handleUpdateTeamSettings_writes|].
    split; [by apply spread_settings_onboarding_given|].
    intros k. by apply spread_settings_field_omitted.
Qed.

Lemma update_merges_top_level_fields_witness :
  ∃ merged,
    writes (trace (handleUpdateInternalLink Sample.owner
                     {| internalLinkInput := Some "https://intra.example.com/new" |}))
    = [merged]
    ∧ onboardingSettings merged
      = Some {| internalLink := Some "https://intra.example.com/new";
                welcomeMessage := None;
                recommendedRepositories := None |}
    ∧ ∀ k, otherFields merged !! k = topField k (Some Sample.snapshot).
Proof.
  exact (proj2 (update_merges_top_level_fields Sample.owner
                  (internalLinkSettings None) None
                  {| internalLinkInput := Some "https://intra.example.com/new" |}
                  eq_refl eq_refl)).
Defined.

(** C1 as stated fails: the snapshot has a welcome message and a
    recommended repository, the object submitted by the internal-link form
    has neither. *)
Lemma internal_link_submit_drops_sibling_fields :
  ∃ merged,
    writes (trace (handleUpdateInternalLink Sample.owner
                     {| internalLinkInput := Some "https://intra.example.com/new" |}))
    = [merged]
    ∧ onboardingSettings merged ?. welcomeMessage
      ≠ Some Sample.snapshot ?. onboardingSettings ?. welcomeMessage
    ∧ onboardingSettings merged ?. recommendedRepositories
      ≠ Some Sample.snapshot ?. onboardingSettings ?. recommendedRepositories.
Proof.
  eexists. split; [reflexivity|]. split; discriminate.
Qed.

(** C2 (as amended).  With no organization selected [update()] throws the
    no-organization error, whoever calls; with an organization selected and
    a caller who is not an owner it throws the permission error.  In both
    cases the trace is empty: the remote write is not invoked (and no notice
    is shown). *)
Theorem update_guards_before_write {V} (env : Env V)
    (newSettings : OrganizationSettings V) (options : option Options) :
  (has_org_id env = false →
   handleUpdateTeamSettings env newSettings options = ([], Thrown NoOrganizationError))
  ∧ (has_org_id env = true → isOwner env = false →
     handleUpdateTeamSettings env newSettings options = ([], Thrown PermissionError)).
Proof.
  unfold handleUpdateTeamSettings. split.
  - by intros ->.
  - by intros -> ->.
Qed.

Lemma update_guards_before_write_witness :
  handleUpdateTeamSettings Sample.visitor (internalLinkSettings (Some "x")) None
  = ([], Thrown NoOrganizationError)
  ∧ handleUpdateTeamSettings Sample.member (internalLinkSettings (Some "x")) None
    = ([], Thrown PermissionError).
Proof.
  split.
  - exact (proj1 (update_guards_before_write Sample.visitor
                    (internalLinkSettings (Some "x")) None) eq_refl).
  - exact (proj2 (update_guards_before_write Sample.member
                    (internalLinkSettings (Some "x")) None) eq_refl eq_refl).
Defined.

(** C2 as stated fails for a caller who is not an owner and has no
    organization selected: the error is the no-organization one. *)
Lemma update_non_owner_without_organization :
  isOwner Sample.visitor = false
  ∧ outcome (handleUpdateTeamSettings Sample.visitor (internalLinkSettings (Some "x")) None)
    = Thrown NoOrganizationError
  ∧ outcome (handleUpdateTeamSettings Sample.visitor (internalLinkSettings (Some "x")) None)
    ≠ Thrown PermissionError.
Proof.
  split; [reflexivity|]. split; [reflexivity|]. discriminate.
Qed.

(** C7.  When the remote write rejects with [e]: without the option the
    callback shows the failure notice that ends in [e]'s text, logs [e] and
    returns; with [throwMutateError] it throws [e] itself and shows no
    notice.  The write was submitted once either way. *)
Theorem update_failure_policy {V} (env : Env V)
    (newSettings : OrganizationSettings V) (options : option Options) (e : Js.Error) :
  has_org_id env = true →
  isOwner env = true →
  mutationError env (spread_settings (settings env) newSettings) = Some e →
  let merged := spread_settings (settings env) newSettings in
  handleUpdateTeamSettings env newSettings None
  = ([MutateAsync merged;
      Toast ("Failed to update organization settings: " +:+ Js.message e);
      ConsoleError e], Returned tt)
  ∧ handleUpdateTeamSettings env newSettings (Some {| throwMutateError := Some true |})
    = ([MutateAsync merged], Thrown e)
  ∧ handleUpdateTeamSettings env newSettings options
    = if wants_throw options then ([MutateAsync merged], Thrown e)
      else ([MutateAsync merged;
             Toast ("Failed to update organization settings: " +:+ Js.message e);
             ConsoleError e], Returned tt).
Proof.
  intros Horg Howner He merged.
  rewrite !handleUpdateTeamSettings_allowed by done.
  cbv zeta. subst merged. rewrite He. by destruct (wants_throw options).
Qed.

Lemma update_failure_policy_witness :
  handleUpdateTeamSettings Sample.owner_offline (internalLinkSettings (Some "x")) None
  = ([MutateAsync (spread_settings (Some Sample.snapshot) (internalLinkSettings (Some "x")));
      Toast "Failed to update organization settings: deadline exceeded";
      ConsoleError Sample.timeout], Returned tt).
Proof.
  exact (proj1 (update_failure_policy Sample.owner_offline
                  (internalLinkSettings (Some "x")) None Sample.timeout
                  eq_refl eq_refl eq_refl)).
Defined.

(** ** The welcome-message switch *)

Import WelcomeMessageConfigurationField.

Lemma truthy_false (s : option string) :
  s = None ∨ s = Some "" → Js.truthy s = false.
Proof. by intros [->| ->]. Qed.

Lemma remote_after_no_write {V R} (upd : R → OrganizationSettings V → R)
    (tr : list (Effect V)) (r : R) :
  writes tr = [] → remote_after upd tr r = r.
Proof. unfold remote_after. by intros ->. Qed.

(** The notice of the switch is none of the notices of the update callback. *)
Lemma update_never_shows_setup_notice {V} (env : Env V)
    (newSettings : OrganizationSettings V) (options : option Options) :
  ¬ In (Toast setupNotice) (trace (handleUpdateTeamSettings env newSettings options)).
Proof.
  destruct (has_org_id env) eqn:Horg; [destruct (isOwner env) eqn:Howner|].
  - rewrite handleUpdateTeamSettings_allowed by done. cbv zeta.
    destruct (mutationError env _) as [e|]; [destruct (wants_throw options)|];
      simpl; intros H; repeat destruct H as [H|H]; try discriminate H; done.
  - rewrite handleUpdateTeamSettings_refused by auto. by intros [].
  - rewrite handleUpdateTeamSettings_refused by auto. by intros [].
Qed.

(** C3.  While the remote welcome message has no text (absent or empty),
    switching on only shows the notice "Please set up a welcome message
    first.": nothing is submitted and the remote settings stay as they are,
    whatever the store does with a write.  Switching off never takes that
    branch: it always calls the update callback (resp. the mutation, in the
    earlier page) and never shows this notice. *)
Theorem enable_without_message_is_refused {V} (env : Env V) :
  let settings := settings env in
  remoteWelcomeMessage settings ?. message = None
  ∨ remoteWelcomeMessage settings ?. message = Some "" →
  (∀ h, onCheckedChange h settings true
        = ([Toast "Please set up a welcome message first."], Returned tt))
  ∧ Inline.onCheckedChange settings true
    = ([Toast "Please set up a welcome message first."], Returned tt)
  ∧ (∀ h R (upd : R → OrganizationSettings V → R) (r : R),
        writes (trace (onCheckedChange h settings true)) = []
        ∧ remote_after upd (trace (onCheckedChange h settings true)) r = r
        ∧ writes (trace (Inline.onCheckedChange settings true)) = []
        ∧ remote_after upd (trace (Inline.onCheckedChange settings true)) r = r)
  ∧ (∀ h, onCheckedChange h settings false
          = detach (h (welcomeMessageSettings settings (toggleSettings false)) None))
  ∧ ¬ In (Toast setupNotice)
        (trace (onCheckedChange (handleUpdateTeamSettings env) settings false))
  ∧ Inline.onCheckedChange settings false
    = ([Mutate (Inline.toggleSettings settings false)], Returned tt).
Proof.
  intros settings Hempty. apply truthy_false in Hempty.
  assert (Hon : ∀ h, onCheckedChange h settings true
                     = ([Toast "Please set up a welcome message first."], Returned tt)).
  { intros h. unfold onCheckedChange. by rewrite Hempty. }
  assert (Hinline : Inline.onCheckedChange settings true
                    = ([Toast "Please set up a welcome message first."], Returned tt)).
  { unfold Inline.onCheckedChange.
    unfold remoteWelcomeMessage in Hempty. by rewrite Hempty. }
  split; [done|]. split; [done|]. split.
  { intros h R upd r. rewrite Hon, Hinline. done. }
  split; [done|]. split; [|done].
  apply update_never_shows_setup_notice.
Qed.

Lemma enable_without_message_is_refused_witness :
  onCheckedChange (handleUpdateTeamSettings Sample.owner_blank)
    (Some Sample.snapshot_blank) true
  = ([Toast "Please set up a welcome message first."], Returned tt).
Proof.
  exact (proj1 (enable_without_message_is_refused Sample.owner_blank
                  (or_intror eq_refl))
           (handleUpdateTeamSettings Sample.owner_blank)).
Defined.

(** The merge keeps the welcome message the component built. *)
Lemma spread_settings_welcomeMessage {V} (snapshot settings : option (OrganizationSettings V))
    (newSettings : WelcomeMessageInit) :
  onboardingSettings (spread_settings snapshot (welcomeMessageSettings settings newSettings))
  = onboardingSettings (welcomeMessageSettings settings newSettings).
Proof. by destruct snapshot. Qed.

(** C8.  A switch action that passes the check (switching off, or switching
    on while the remote message has a text) calls the update callback at
    once, with an object whose welcome message is the remote one with only
    [enabled] replaced: [message] and [featuredMemberId] are the remote
    values.  Past the guards of the callback that object is the one write
    submitted.  The earlier page submits the same three fields through the
    mutation directly.  The submission does not depend on the component's
    state: an open editor or a pending draft is not part of it, and the
    state is left as it was. *)
Theorem toggle_submits_full_welcome_message {V} (env : Env V) (checked : bool) :
  let settings := settings env in
  let remote := remoteWelcomeMessage settings in
  checked = false ∨ Js.truthy (remote ?. message) = true →
  (∀ h, onCheckedChange h settings checked
        = detach (h (welcomeMessageSettings settings (toggleSettings checked)) None))
  ∧ onboardingSettings (welcomeMessageSettings settings (toggleSettings checked))
      ?. welcomeMessage
    = Some {| enabled := checked;
              message := remote ?. message;
              featuredMemberId := remote ?. featuredMemberId;
              featuredMemberResolvedAvatarUrl :=
                remote ?. featuredMemberResolvedAvatarUrl |}
  ∧ (has_org_id env = true → isOwner env = true →
     ∃ merged,
       writes (trace (onCheckedChange (handleUpdateTeamSettings env) settings checked))
       = [merged]
       ∧ onboardingSettings merged ?. welcomeMessage
         = Some {| enabled := checked;
                   message := remote ?. message;
                   featuredMemberId := remote ?. featuredMemberId;
                   featuredMemberResolvedAvatarUrl :=
                     remote ?. featuredMemberResolvedAvatarUrl |})
  ∧ (∃ submitted,
        Inline.onCheckedChange settings checked = ([Mutate submitted], Returned tt)
        ∧ onboardingSettings submitted ?. welcomeMessage
          = Some {| enabled := checked;
                    message := remote ?. message;
                    featuredMemberId := remote ?. featuredMemberId;
                    featuredMemberResolvedAvatarUrl := None |})
  ∧ (∀ h st st',
        (step h settings st (Switch checked)).1 = st
        ∧ (step h settings st (Switch checked)).2
          = (step h settings st' (Switch checked)).2).
Proof.
  intros settings remote Hpass.
  assert (Hgo : checked && negb (Js.truthy (remote ?. message)) = false).
  { destruct Hpass as [->| ->]; [done|]. by rewrite andb_false_r. }
  assert (Hon : ∀ h, onCheckedChange h settings checked
                     = detach (h (welcomeMessageSettings settings (toggleSettings checked))
                                 None)).
  { intros h. unfold onCheckedChange. fold remote. by rewrite Hgo. }
  split; [done|]. split; [done|]. split; [|split].
  - intros Horg Howner. eexists. rewrite Hon. split.
    + by apply handleUpdateTeamSettings_writes.
    + by rewrite spread_settings_welcomeMessage.
  - exists (Inline.toggleSettings settings checked). split; [|done].
    unfold Inline.onCheckedChange.
    change (settings ?. onboardingSettings ?. welcomeMessage) with remote.
    by rewrite Hgo.
  - done.
Qed.

Lemma toggle_submits_full_welcome_message_witness :
  ∃ merged,
    writes (trace (onCheckedChange (handleUpdateTeamSettings Sample.owner)
                     (Some Sample.snapshot) false))
    = [merged]
    ∧ onboardingSettings merged ?. welcomeMessage
      = Some {| enabled := false;
                message := Some "Welcome aboard!";
                featuredMemberId := Some "m1";
                featuredMemberResolvedAvatarUrl := Some "https://example.com/a1.png" |}.
Proof.
  exact (proj1 (proj2 (proj2 (toggle_submits_full_welcome_message Sample.owner false
                                (or_introl eq_refl))))
           eq_refl eq_refl).
Defined.

(** ** The welcome-message editor *)

Import WelcomeMessageEditor.

(** C5.  Saving the editor calls the update callback once, with an object
    whose welcome message has the draft's [message] and [featuredMemberId],
    the remote [enabled] ([false] when there is no remote welcome message,
    which is what the switch shows) and the remote resolved avatar.  Every
    write a save submits carries that welcome message, and past the guards
    of the callback there is exactly one. *)
Theorem save_keeps_enabled {V} (env : Env V) (d : Draft) :
  let settings := settings env in
  let remote := remoteWelcomeMessage settings in
  let saved :=
    {| enabled := Js.nullish (enabled <$> remote) false;
       message := draftMessage d;
       featuredMemberId := draftFeaturedMemberId d;
       featuredMemberResolvedAvatarUrl := remote ?. featuredMemberResolvedAvatarUrl |} in
  let save h := updateWelcomeMessage (handleUpdateWelcomeMessage h settings) remote d in
  (∀ h, save h = h (welcomeMessageSettings settings (draftSettings remote d)) None)
  ∧ onboardingSettings (welcomeMessageSettings settings (draftSettings remote d))
      ?. welcomeMessage = Some saved
  ∧ (∀ wm, remote = Some wm → enabled saved = enabled wm)
  ∧ (∀ merged, In merged (writes (trace (save (handleUpdateTeamSettings env)))) →
               onboardingSettings merged ?. welcomeMessage = Some saved)
  ∧ (if has_org_id env && isOwner env
     then ∃ merged, writes (trace (save (handleUpdateTeamSettings env))) = [merged]
     else writes (trace (save (handleUpdateTeamSettings env))) = []).
Proof.
  intros settings remote saved save.
  split; [done|]. split; [done|]. split; [by intros wm ->|].
  assert (Hcases : if has_org_id env && isOwner env
                   then writes (trace (save (handleUpdateTeamSettings env)))
                        = [spread_settings settings
                             (welcomeMessageSettings settings (draftSettings remote d))]
                   else writes (trace (save (handleUpdateTeamSettings env))) = []).
  { destruct (has_org_id env) eqn:Horg; [destruct (isOwner env) eqn:Howner|]; simpl.
    - by apply handleUpdateTeamSettings_writes.
    - unfold save, updateWelcomeMessage, handleUpdateWelcomeMessage.
      by rewrite handleUpdateTeamSettings_refused by auto.
    - unfold save, updateWelcomeMessage, handleUpdateWelcomeMessage.
      by rewrite handleUpdateTeamSettings_refused by auto. }
  split.
  - intros merged Hin. destruct (has_org_id env && isOwner env).
    + rewrite Hcases in Hin. destruct Hin as [<-|[]].
      by rewrite spread_settings_welcomeMessage.
    + rewrite Hcases in Hin. destruct Hin.
  - destruct (has_org_id env && isOwner env); eauto.
Qed.

Lemma save_keeps_enabled_witness :
  enabled
    {| enabled := Js.nullish (enabled <$> Some Sample.greeting) false;
       message := Some "Hi team!";
       featuredMemberId := None;
       featuredMemberResolvedAvatarUrl := Some "https://example.com/a1.png" |}
  = enabled Sample.greeting.
Proof.
  exact (proj1 (proj2 (proj2 (save_keeps_enabled Sample.owner
                                {| draftMessage := Some "Hi team!";
                                   draftFeaturedMemberId := None |})))
           Sample.greeting eq_refl).
Defined.

Section EditorRuns.
Context {V : Type}.
Variable h : OrganizationSettings V → option Options → Action V unit.
Variable settings : option (OrganizationSettings V).

Lemma run_app (evs1 evs2 : list Event) (st : State) :
  run h settings (evs1 ++ evs2) st
  = let '(st1, tr1) := run h settings evs1 st in
    let '(st2, tr2) := run h settings evs2 st1 in
    (st2, tr1 ++ tr2).
Proof.
  revert st. induction evs1 as [|ev evs1 IH]; intros st; simpl.
  - by destruct (run h settings evs2 st).
  - destruct (step h settings st ev) as [st' tr']. rewrite IH.
    destruct (run h settings evs1 st') as [st1 tr1].
    destruct (run h settings evs2 st1) as [st2 tr2].
    by rewrite app_assoc.
Qed.

Lemma step_local_silent (ev : Event) (st : State) :
  is_local ev = true → (step h settings st ev).2 = [].
Proof. by destruct ev. Qed.

Lemma run_local_silent (evs : list Event) (st : State) :
  forallb is_local evs = true → (run h settings evs st).2 = [].
Proof.
  revert st. induction evs as [|ev evs IH]; intros st Hlocal; [done|].
  simpl in Hlocal. apply andb_prop in Hlocal as [Hev Hevs]. simpl.
  pose proof (step_local_silent ev st Hev) as Hstep.
  destruct (step h settings st ev) as [st1 tr1]. simpl in Hstep. subst tr1.
  specialize (IH st1 Hevs). by destruct (run h settings evs st1) as [st2 tr2].
Qed.

End EditorRuns.

(** No handler reads the settings into the component's state. *)
Lemma step_state_independent {V}
    (h h' : OrganizationSettings V → option Options → Action V unit)
    (settings settings' : option (OrganizationSettings V)) (st : State) (ev : Event) :
  (step h' settings' st ev).1 = (step h settings st ev).1.
Proof. by destruct ev. Qed.

(** C4 (as amended).  Opening the editor, editing the draft and cancelling
    or closing the editor call nothing: no update is submitted and the
    remote settings stay as they are.  The draft is read from the remote
    settings once, when the component is mounted, and no handler reads them
    again; cancelling (or closing) and opening again leave the draft as the
    edits made it. *)
Theorem cancel_submits_nothing_and_keeps_draft {V}
    (h : OrganizationSettings V → option Options → Action V unit)
    (settings : option (OrganizationSettings V)) (evs : list Event) (st : State)
    (close : Event) :
  forallb is_local evs = true →
  close = ClickCancel ∨ close = CloseModal →
  let edited := (run h settings evs st).1 in
  let reopened := (run h settings (evs ++ [close; ClickEdit]) st).1 in
  draft (mount settings) = initialDraft (remoteWelcomeMessage settings)
  ∧ (∀ (h' : OrganizationSettings V → option Options → Action V unit)
       (settings' : option (OrganizationSettings V)) st0 ev,
        (step h' settings' st0 ev).1 = (step h settings st0 ev).1)
  ∧ (run h settings (evs ++ [close]) st).2 = []
  ∧ (∀ R (upd : R → OrganizationSettings V → R) (r : R),
        remote_after upd (run h settings (evs ++ [close]) st).2 r = r)
  ∧ welcomeMessageEditorOpen (run h settings (evs ++ [close]) st).1 = false
  ∧ welcomeMessageEditorOpen reopened = true
  ∧ draft reopened = draft edited.
Proof.
  intros Hlocal Hclose edited reopened. subst edited reopened.
  split; [done|]. split; [intros; apply step_state_independent|].
  pose proof (run_local_silent h settings evs st Hlocal) as Hsilent.
  rewrite !run_app. destruct (run h settings evs st) as [st1 tr1].
  simpl in Hsilent. subst tr1.
  destruct Hclose as [-> | ->]; simpl; done.
Qed.

Lemma cancel_submits_nothing_and_keeps_draft_witness :
  draft (run (handleUpdateTeamSettings Sample.owner) (Some Sample.snapshot)
           ([ClickEdit; ChangeMessage "Hello"] ++ [ClickCancel; ClickEdit])
           (mount (Some Sample.snapshot))).1
  = {| draftMessage := Some "Hello"; draftFeaturedMemberId := Some "m1" |}.
Proof.
  exact (proj2 (proj2 (proj2 (proj2 (proj2 (proj2
           (cancel_submits_nothing_and_keeps_draft
              (handleUpdateTeamSettings Sample.owner) (Some Sample.snapshot)
              [ClickEdit; ChangeMessage "Hello"] (mount (Some Sample.snapshot))
              ClickCancel eq_refl (or_introl eq_refl)))))))).
Defined.

(** C4 as stated fails: the remote message is "Welcome aboard!" and the
    featured member "m1"; after an edit and a cancel, the draft of the
    editor opened again is the edited one. *)
Lemma reopened_draft_is_the_edited_one :
  let settings := Some Sample.snapshot in
  let reopened :=
    (run (handleUpdateTeamSettings Sample.owner) settings
       [ClickEdit; ChangeMessage "Hello"; PickMember (Some "m2"); ClickCancel; ClickEdit]
       (mount settings)).1 in
  welcomeMessageEditorOpen reopened = true
  ∧ draft reopened = {| draftMessage := Some "Hello"; draftFeaturedMemberId := Some "m2" |}
  ∧ draftMessage (draft reopened) ≠ remoteWelcomeMessage settings ?. message
  ∧ draftFeaturedMemberId (draft reopened)
    ≠ remoteWelcomeMessage settings ?. featuredMemberId.
Proof.
  simpl. split; [done|]. split; [done|]. split; discriminate.
Qed.

(** ** The internal-link input *)

Lemma run_snoc {V} (evs : list (TeamOnboarding.Event V)) (ev : TeamOnboarding.Event V)
    (st : TeamOnboarding.State) :
  TeamOnboarding.run (evs ++ [ev]) st
  = TeamOnboarding.step (TeamOnboarding.run evs st) ev.
Proof. unfold TeamOnboarding.run. by rewrite foldl_app. Qed.

Lemma run_without_settings {V} (evs : list (TeamOnboarding.Event V))
    (st : TeamOnboarding.State) :
  forallb without_settings evs = true → TeamOnboarding.run evs st = st.
Proof.
  revert st. induction evs as [|ev evs IH]; intros st Hevs; [done|].
  simpl in Hevs. apply andb_prop in Hevs as [Hev Hevs].
  unfold TeamOnboarding.run in *. simpl. rewrite <- (IH st Hevs) at 2.
  f_equal. by destruct ev as [[s|]| |v].
Qed.

(** C6 (as amended).  The input starts as [undefined].  Every time the
    query hands the page a new settings object, the input is set to that
    object's internal link, whatever the input held and whatever happened
    before: a refetch that delivers a new object overwrites what the user
    typed.  What the user typed stays only as long as no settings object
    arrives (re-renders, and renders while [settings] is [undefined]). *)
Theorem internal_link_follows_every_settings_change {V}
    (evs : list (TeamOnboarding.Event V)) (st : TeamOnboarding.State) :
  internalLinkInput initialState = None
  ∧ (∀ s, internalLinkInput (TeamOnboarding.run (evs ++ [SettingsChanged (Some s)]) st)
          = onboardingSettings s ?. internalLink)
  ∧ (∀ v later,
        forallb without_settings later = true →
        internalLinkInput (TeamOnboarding.run (evs ++ [Typed v] ++ later) st) = Some v).
Proof.
  split; [done|]. split.
  - intros s. by rewrite run_snoc.
  - intros v later Hlater. rewrite app_assoc.
    unfold TeamOnboarding.run. rewrite foldl_app.
    fold (TeamOnboarding.run later (foldl TeamOnboarding.step st (evs ++ [Typed v]))).
    rewrite run_without_settings by done. by rewrite foldl_app.
Qed.

Lemma internal_link_follows_every_settings_change_witness :
  internalLinkInput
    (TeamOnboarding.run
       ([SettingsChanged (Some Sample.snapshot)]
        ++ [Typed "https://intra.example.com/new"] ++ [Rerender; SettingsChanged None])
       initialState)
  = Some "https://intra.example.com/new".
Proof.
  exact (proj2 (proj2 (internal_link_follows_every_settings_change
                         [SettingsChanged (Some Sample.snapshot)] initialState))
           "https://intra.example.com/new" [Rerender; SettingsChanged None] eq_refl).
Defined.

(** C6 as stated fails: the user types a new link, then a refetch delivers
    the settings with the welcome message switched off; the input is back
    at the remote link. *)
Lemma refetch_overwrites_typed_link :
  internalLinkInput
    (TeamOnboarding.run
       [SettingsChanged (Some Sample.snapshot);
        Typed "https://intra.example.com/new";
        SettingsChanged (Some Sample.snapshot_refetched)]
       initialState)
  = Some "https://intra.example.com/old"
  ∧ internalLinkInput
      (TeamOnboarding.run
         [SettingsChanged (Some Sample.snapshot);
          Typed "https://intra.example.com/new";
          SettingsChanged (Some Sample.snapshot_refetched)]
         initialState)
    ≠ Some "https://intra.example.com/new".
Proof. split; [reflexivity|discriminate]. Qed.

(** ** The preview *)

Import WelcomeMessagePreview.

(** C9.  While the remote welcome message has no text (absent or empty),
    the preview is the header row and the subheading and nothing else: no
    message block, no markdown body and no avatar, whatever the resolved
    avatar URL is.  The subheading is always there, and so is the heading
    unless [hideHeader] is set. *)
Theorem preview_without_message {V} (settings : option (OrganizationSettings V))
    (props : Props) :
  let remote := settings ?. onboardingSettings ?. welcomeMessage in
  remote ?. message = None ∨ remote ?. message = Some "" →
  let page := elements (render settings props) in
  render settings props
  = Div [Div ((if negb (Js.nullish (hideHeader props) false)
               then [Heading2 "Welcome to Gitpod"] else [])
              ++ (if setWelcomeMessageEditorOpen props
                  then [Button "Edit" (disabled props)] else []));
         Subheading gitpodWelcomeSubheading]
  ∧ Forall (λ n, is_message_block n = false ∧ is_markdown n = false ∧ is_img n = false)
      page
  ∧ In (Subheading gitpodWelcomeSubheading) page
  ∧ (hideHeader props = None ∨ hideHeader props = Some false →
     In (Heading2 "Welcome to Gitpod") page).
Proof.
  intros remote Hempty page.
  assert (Hrender : render settings props
    = Div [Div ((if negb (Js.nullish (hideHeader props) false)
                 then [Heading2 "Welcome to Gitpod"] else [])
                ++ (if setWelcomeMessageEditorOpen props
                    then [Button "Edit" (disabled props)] else []));
           Subheading gitpodWelcomeSubheading]).
  { unfold render. fold remote. by destruct Hempty as [-> | ->]. }
  subst page. rewrite Hrender. split; [done|].
  destruct props as [dis [[|]|] [|]]; simpl.
  all: split; [repeat constructor|].
  all: split; [auto 10|].
  all: intros [?|?]; simplify_eq; auto.
Qed.

Lemma preview_without_message_witness :
  In (Heading2 "Welcome to Gitpod")
    (elements (render (Some Sample.snapshot_blank)
                 {| disabled := None; hideHeader := None;
                    setWelcomeMessageEditorOpen := true |})).
Proof.
  exact (proj2 (proj2 (proj2 (preview_without_message (Some Sample.snapshot_blank)
                                {| disabled := None; hideHeader := None;
                                   setWelcomeMessageEditorOpen := true |}
                                (or_intror eq_refl))))
           (or_introl eq_refl)).
Defined.

(** ** The join modal *)

Import OrganizationJoinModal.

Lemma mount_after_dismiss (st : OrganizationJoinModal.State * Storage) :
  orgOnboardingPending (OrganizationJoinModal.mount (dismissOrgOnboardingPending st).2)
  = false.
Proof.
  destruct st as [st [items|]]; [|done].
  unfold OrganizationJoinModal.mount, dismissOrgOnboardingPending. simpl.
  apply bool_decide_eq_false. by rewrite lookup_delete_eq.
Qed.

Lemma shows_not_pending {V} (orgSettings : option (OrganizationSettings V))
    (st : OrganizationJoinModal.State) :
  orgOnboardingPending st = false → shows orgSettings st = false.
Proof.
  intros Hst. unfold shows, OrganizationJoinModal.render.
  by destruct (welcomeEnabled orgSettings).
Qed.

(** C10.  When the welcome message of the settings is not enabled ([enabled]
    false, or absent along the chain), the join modal renders nothing, on
    its first render and after its effect, and the effect removes the
    [newUserOnboardingPending] item from the storage (when there is a
    storage).  From then on the modal is not shown, whatever the settings
    become: neither by this instance, nor by one mounted later on the
    storage left behind. *)
Theorem join_modal_dismisses_when_disabled {V}
    (orgSettings : option (OrganizationSettings V)) (storage : Storage) :
  let remote := orgSettings ?. onboardingSettings ?. welcomeMessage in
  enabled <$> remote = None ∨ enabled <$> remote = Some false →
  let after := mounted orgSettings storage in
  OrganizationJoinModal.render orgSettings (OrganizationJoinModal.mount storage) = None
  ∧ OrganizationJoinModal.render orgSettings after.1 = None
  ∧ after.2 = delete pendingKey <$> storage
  ∧ after.2 ?. (λ items, items !! pendingKey) = None
  ∧ (∀ later : option (OrganizationSettings V),
        shows later after.1 = false
        ∧ shows later (OrganizationJoinModal.mount after.2) = false
        ∧ shows later (mounted later after.2).1 = false).
Proof.
  intros remote Hoff after.
  assert (Hdisabled : welcomeEnabled orgSettings = false).
  { unfold welcomeEnabled. fold remote. by destruct Hoff as [-> | ->]. }
  assert (Hafter : after = dismissOrgOnboardingPending
                             (OrganizationJoinModal.mount storage, storage)).
  { unfold after, mounted, effect. by rewrite Hdisabled. }
  unfold OrganizationJoinModal.render. rewrite Hdisabled. simpl.
  split; [done|]. split; [done|]. rewrite Hafter.
  split; [done|]. split.
  { destruct storage as [items|]; [|done]. simpl. apply lookup_delete_eq. }
  intros later. split; [by apply shows_not_pending|].
  split; apply shows_not_pending.
  - apply mount_after_dismiss.
  - unfold mounted, effect.
    destruct (welcomeEnabled later); [|done]. apply mount_after_dismiss.
Qed.

Lemma join_modal_dismisses_when_disabled_witness :
  (mounted (Some Sample.snapshot_refetched)
     (Some {[ "newUserOnboardingPending" := "true" ]})).2
  ?. (λ items, items !! pendingKey) = None
  ∧ shows (Some Sample.snapshot)
      (OrganizationJoinModal.mount
         (mounted (Some Sample.snapshot_refetched)
            (Some {[ "newUserOnboardingPending" := "true" ]})).2)
    = false.
Proof.
  pose proof (join_modal_dismisses_when_disabled (Some Sample.snapshot_refetched)
                (Some {[ "newUserOnboardingPending" := "true" ]})
                (or_intror eq_refl)) as H.
  split.
  - exact (proj1 (proj2 (proj2 (proj2 H)))).
  - exact (proj1 (proj2 (proj2 (proj2 (proj2 (proj2 H))) (Some Sample.snapshot)))).
Defined.

(** * Further properties of the code *)

#[local] Set Warnings "-clear-no-such-hyp".

(** ** The update callback, all outcomes *)

Lemma has_org_id_false {V} (env : Env V) :
  has_org_id env = false ↔ org env = None ∨ org env = Some {| id := "" |}.
Proof.
  unfold has_org_id. destruct (org env) as [[i]|]; simpl.
  - destruct (String.eqb_spec i ""); subst; simpl; split; naive_solver.
  - split; auto.
Qed.

(** X1.  The update callback submits at most one write, and exactly when
    both guards pass: there is no retry after a rejected write and no write
    when the call is refused. *)
Theorem update_submits_once_or_never {V} (env : Env V)
    (newSettings : OrganizationSettings V) (options : option Options) :
  writes (trace (handleUpdateTeamSettings env newSettings options))
  = if has_org_id env && isOwner env
    then [spread_settings (settings env) newSettings]
    else [].
Proof.
  destruct (has_org_id env) eqn:Horg; [destruct (isOwner env) eqn:Howner|]; simpl.
  - by apply handleUpdateTeamSettings_writes.
  - by rewrite handleUpdateTeamSettings_refused by auto.
  - by rewrite handleUpdateTeamSettings_refused by auto.
Qed.

(** X2.  The update callback throws in three cases only: no organization
    (none selected, or one whose id is empty), a caller who is not an owner,
    and a rejected write when the caller asked for it to be thrown.  In every
    other case it returns. *)
Theorem update_throws_iff {V} (env : Env V)
    (newSettings : OrganizationSettings V) (options : option Options) (e : Js.Error) :
  outcome (handleUpdateTeamSettings env newSettings options) = Thrown e
  ↔ ((org env = None ∨ org env = Some {| id := "" |}) ∧ e = NoOrganizationError)
    ∨ (has_org_id env = true ∧ isOwner env = false ∧ e = PermissionError)
    ∨ (has_org_id env = true ∧ isOwner env = true
       ∧ mutationError env (spread_settings (settings env) newSettings) = Some e
       ∧ wants_throw options = true).
Proof.
  rewrite <- has_org_id_false.
  destruct (has_org_id env) eqn:Horg; [destruct (isOwner env) eqn:Howner|].
  - rewrite handleUpdateTeamSettings_allowed by done. cbv zeta.
    destruct (mutationError env _) as [e'|]; [destruct (wants_throw options)|];
      simpl; split; try naive_solver.
  - unfold handleUpdateTeamSettings. rewrite Horg, Howner. simpl.
    split; naive_solver.
  - unfold handleUpdateTeamSettings. rewrite Horg. simpl.
    split; naive_solver.
Qed.

Lemma update_throws_iff_witness :
  outcome (handleUpdateTeamSettings
             {| org := Some {| id := "" |}; isOwner := true;
                settings := Some Sample.snapshot; mutationError := λ _, None |}
             (internalLinkSettings (Some "x")) None)
  = Thrown NoOrganizationError.
Proof.
  exact (proj2 (update_throws_iff
                  {| org := Some {| id := "" |}; isOwner := true;
                     settings := Some Sample.snapshot; mutationError := λ _, None |}
                  (internalLinkSettings (Some "x")) None NoOrganizationError)
           (or_introl (conj (or_intror eq_refl) eq_refl))).
Defined.

(** X3.  The confirmation notice is shown exactly when the write was
    submitted and resolved, and an error is logged exactly when a rejected
    write was swallowed. *)
Theorem update_notices_iff {V} (env : Env V)
    (newSettings : OrganizationSettings V) (options : option Options) :
  let tr := trace (handleUpdateTeamSettings env newSettings options) in
  let merged := spread_settings (settings env) newSettings in
  (In (Toast "Organization settings updated") tr
   ↔ has_org_id env = true ∧ isOwner env = true ∧ mutationError env merged = None)
  ∧ (∀ e, In (ConsoleError e) tr
          ↔ has_org_id env = true ∧ isOwner env = true
            ∧ mutationError env merged = Some e ∧ wants_throw options = false).
Proof.
  intros tr merged. subst tr merged.
  destruct (has_org_id env) eqn:Horg; [destruct (isOwner env) eqn:Howner|].
  - rewrite handleUpdateTeamSettings_allowed by done. cbv zeta.
    destruct (mutationError env _) as [e'|]; [destruct (wants_throw options)|];
      simpl; split; try intros e; split; try naive_solver.
  - rewrite handleUpdateTeamSettings_refused by auto.
    split; try intros e; split; simpl; naive_solver.
  - rewrite handleUpdateTeamSettings_refused by auto.
    split; try intros e; split; simpl; naive_solver.
Qed.

Lemma update_notices_iff_witness :
  In (ConsoleError Sample.timeout)
    (trace (handleUpdateTeamSettings Sample.owner_offline
              (internalLinkSettings (Some "x")) None)).
Proof.
  exact (proj2 (proj2 (update_notices_iff Sample.owner_offline
                         (internalLinkSettings (Some "x")) None) Sample.timeout)
           (conj eq_refl (conj eq_refl (conj eq_refl eq_refl)))).
Defined.

(** X4.  Merging is idempotent: submitting the same partial again onto the
    object it produced gives that object again; and an empty partial gives
    the snapshot back. *)
Theorem spread_settings_idempotent {V} (snapshot : option (OrganizationSettings V))
    (newSettings s : OrganizationSettings V) :
  spread_settings (Some (spread_settings snapshot newSettings)) newSettings
  = spread_settings snapshot newSettings
  ∧ spread_settings (Some s) {| onboardingSettings := None; otherFields := ∅ |} = s.
Proof.
  split.
  - destruct snapshot as [[o f]|], newSettings as [o' f']; simpl.
    + f_equal; [by destruct o'|].
      by rewrite (assoc_L (∪)), (idemp_L (∪)).
    + f_equal; [by destruct o'|]. by rewrite (idemp_L (∪)).
  - destruct s as [o f]. simpl. f_equal. by rewrite (left_id_L ∅ (∪)).
Qed.

(** X5.  Two updates in a row compose: merging a second partial onto the
    result of the first is merging, onto the snapshot, the first partial
    overridden by the second. *)
Theorem spread_settings_assoc {V} (snapshot : option (OrganizationSettings V))
    (first second : OrganizationSettings V) :
  spread_settings (Some (spread_settings snapshot first)) second
  = spread_settings snapshot (spread_settings (Some first) second).
Proof.
  destruct snapshot as [[o f]|], first as [o1 f1], second as [o2 f2]; simpl; [|done].
  f_equal; [by destruct o2|]. by rewrite (assoc_L (∪)).
Qed.

(** ** The internal-link form *)




(** ** The welcome-message switch and editor, together *)

(** X7.  The editor's save does not look at the message: a draft without
    text is submitted as it is, and when the remote welcome message is
    enabled it is submitted enabled.  The switch's notice is not shown on
    this path. *)
Theorem save_submits_empty_message_unchecked {V} (env : Env V) (d : Draft) :
  let remote := remoteWelcomeMessage (settings env) in
  let save := updateWelcomeMessage
                (handleUpdateWelcomeMessage (handleUpdateTeamSettings env) (settings env))
                remote d in
  has_org_id env = true →
  isOwner env = true →
  enabled <$> remote = Some true →
  Js.truthy (draftMessage d) = false →
  (∃ merged saved,
      writes (trace save) = [merged]
      ∧ onboardingSettings merged ?. welcomeMessage = Some saved
      ∧ enabled saved = true
      ∧ Js.truthy (message saved) = false)
  ∧ ¬ In (Toast setupNotice) (trace save).
Proof.
  intros remote save Horg Howner Hon Hempty. split.
  - eexists _, _. split; [by apply handleUpdateTeamSettings_writes|].
    split; [by rewrite spread_settings_welcomeMessage|].
    simpl. fold remote. by rewrite Hon.
  - apply update_never_shows_setup_notice.
Qed.

Lemma save_submits_empty_message_unchecked_witness :
  ∃ merged saved,
    writes (trace (updateWelcomeMessage
                     (handleUpdateWelcomeMessage (handleUpdateTeamSettings Sample.owner)
                        (Some Sample.snapshot))
                     (Some Sample.greeting)
                     {| draftMessage := Some ""; draftFeaturedMemberId := Some "m1" |}))
    = [merged]
    ∧ onboardingSettings merged ?. welcomeMessage = Some saved
    ∧ enabled saved = true
    ∧ Js.truthy (message saved) = false.
Proof.
  exact (proj1 (save_submits_empty_message_unchecked Sample.owner
                  {| draftMessage := Some ""; draftFeaturedMemberId := Some "m1" |}
                  eq_refl eq_refl eq_refl eq_refl)).
Defined.

(** X8.  Updates of the welcome message compose field by field: a switch
    after another update changes [enabled] only; switching and switching
    back gives the welcome message back; the same update twice is the
    update once. *)
Theorem welcome_message_updates_compose (base : option WelcomeMessage)
    (newSettings : WelcomeMessageInit) (wm : WelcomeMessage) (checked : bool) :
  spread_welcomeMessage (Some (spread_welcomeMessage base newSettings))
    (toggleSettings checked)
  = {| enabled := checked;
       message := message (spread_welcomeMessage base newSettings);
       featuredMemberId := featuredMemberId (spread_welcomeMessage base newSettings);
       featuredMemberResolvedAvatarUrl :=
         featuredMemberResolvedAvatarUrl (spread_welcomeMessage base newSettings) |}
  ∧ spread_welcomeMessage
      (Some (spread_welcomeMessage (Some wm) (toggleSettings checked)))
      (toggleSettings (enabled wm)) = wm
  ∧ spread_welcomeMessage (Some (spread_welcomeMessage base newSettings)) newSettings
    = spread_welcomeMessage base newSettings.
Proof.
  split; [done|]. split; [by destruct wm|].
  destruct newSettings as [e [m|] [f|] [a|]]; done.
Qed.

(** X9.  Whatever welcome-message update the component submits, the object
    that reaches the remote write has no internal link in its
    [onboardingSettings], has the recommended repositories of the snapshot
    (an empty list when the snapshot has none), and has the snapshot's other
    top-level fields. *)
Theorem welcome_update_frame {V} (env : Env V) (newSettings : WelcomeMessageInit) :
  has_org_id env = true →
  isOwner env = true →
  ∃ merged,
    writes (trace (handleUpdateWelcomeMessage (handleUpdateTeamSettings env)
                     (settings env) newSettings)) = [merged]
    ∧ onboardingSettings merged ?. internalLink = None
    ∧ onboardingSettings merged ?. recommendedRepositories
      = Some (Js.nullish (settings env ?. onboardingSettings ?. recommendedRepositories) [])
    ∧ ∀ k, otherFields merged !! k = topField k (settings env).
Proof.
  intros Horg Howner. eexists. split; [by apply handleUpdateTeamSettings_writes|].
  rewrite spread_settings_welcomeMessage.
  split; [done|]. split; [done|].
  intros k. by apply spread_settings_field_omitted.
Qed.

Lemma welcome_update_frame_witness :
  ∃ merged,
    writes (trace (handleUpdateWelcomeMessage (handleUpdateTeamSettings Sample.owner)
                     (Some Sample.snapshot) (toggleSettings false))) = [merged]
    ∧ onboardingSettings merged ?. internalLink = None
    ∧ onboardingSettings merged ?. recommendedRepositories = Some ["repo-1"]
    ∧ ∀ k, otherFields merged !! k = topField k (Some Sample.snapshot).
Proof.
  exact (welcome_update_frame Sample.owner (toggleSettings false) eq_refl eq_refl).
Defined.

Lemma run_cons_state {V}
    (h : OrganizationSettings V → option Options → Action V unit)
    (settings : option (OrganizationSettings V)) (ev : Event) (evs : list Event)
    (st : WelcomeMessageConfigurationField.State) :
  (run h settings (ev :: evs) st).1 = (run h settings evs (step h settings st ev).1).1.
Proof.
  simpl. destruct (step h settings st ev) as [st1 tr1]. simpl.
  by destruct (run h settings evs st1).
Qed.

Lemma run_app_state {V}
    (h : OrganizationSettings V → option Options → Action V unit)
    (settings : option (OrganizationSettings V)) (evs1 evs2 : list Event)
    (st : WelcomeMessageConfigurationField.State) :
  (run h settings (evs1 ++ evs2) st).1
  = (run h settings evs2 (run h settings evs1 st).1).1.
Proof.
  rewrite run_app. destruct (run h settings evs1 st) as [st1 tr1]. simpl.
  by destruct (run h settings evs2 st1).
Qed.

(** X10.  Submitting the form and using the switch never change the
    component's state: the editor stays as open or closed as it was and the
    draft is kept, whatever the update does.  The state after a run is the
    state after its other events alone. *)
Theorem submissions_leave_state {V}
    (h : OrganizationSettings V → option Options → Action V unit)
    (settings : option (OrganizationSettings V)) (evs : list Event)
    (st : WelcomeMessageConfigurationField.State) :
  (run h settings evs st).1 = (run h settings (List.filter is_local evs) st).1.
Proof.
  revert st. induction evs as [|ev evs IH]; intros st; [done|].
  rewrite run_cons_state.
  destruct ev; cbn [List.filter is_local]; rewrite ?run_cons_state; apply IH.
Qed.

Lemma run_keeps_message {V}
    (h : OrganizationSettings V → option Options → Action V unit)
    (settings : option (OrganizationSettings V)) (evs : list Event)
    (st : WelcomeMessageConfigurationField.State) :
  Forall (λ ev, ∀ v, ev ≠ ChangeMessage v) evs →
  draftMessage (draft (run h settings evs st).1) = draftMessage (draft st).
Proof.
  intros Hevs. revert st. induction Hevs as [|ev evs Hev _ IH]; intros st; [done|].
  rewrite run_cons_state, IH.
  destruct ev; simpl; try done. by destruct (Hev v).
Qed.

(** X11.  What was typed last into the editor is what a save submits, also
    when the editor was cancelled, closed or reopened in between: cancel
    does not discard the text. *)
Theorem typed_message_is_saved {V} (env : Env V) (evs later : list Event)
    (v : string) (st : WelcomeMessageConfigurationField.State) :
  let h := handleUpdateTeamSettings env in
  let st' := (run h (settings env) (evs ++ [ChangeMessage v] ++ later) st).1 in
  has_org_id env = true →
  isOwner env = true →
  Forall (λ ev, ∀ v', ev ≠ ChangeMessage v') later →
  ∃ merged saved,
    writes (step h (settings env) st' Submit).2 = [merged]
    ∧ onboardingSettings merged ?. welcomeMessage = Some saved
    ∧ message saved = Some v.
Proof.
  intros h st' Horg Howner Hlater. eexists _, _.
  split; [by apply handleUpdateTeamSettings_writes|].
  split; [by rewrite spread_settings_welcomeMessage|].
  simpl. subst st'. rewrite app_assoc, run_app_state.
  rewrite run_keeps_message by done. rewrite run_app_state.
  by rewrite run_cons_state.
Qed.

Lemma typed_message_is_saved_witness :
  ∃ merged saved,
    writes (step (handleUpdateTeamSettings Sample.owner) (Some Sample.snapshot)
              (run (handleUpdateTeamSettings Sample.owner) (Some Sample.snapshot)
                 ([ClickEdit] ++ [ChangeMessage "Hello"] ++ [ClickCancel; ClickEdit])
                 (WelcomeMessageConfigurationField.mount (Some Sample.snapshot))).1
              Submit).2 = [merged]
    ∧ onboardingSettings merged ?. welcomeMessage = Some saved
    ∧ message saved = Some "Hello".
Proof.
  apply (typed_message_is_saved Sample.owner [ClickEdit] [ClickCancel; ClickEdit] "Hello"
           (WelcomeMessageConfigurationField.mount (Some Sample.snapshot)));
    [reflexivity | reflexivity | repeat constructor; discriminate].
Defined.

(** ** The preview, element by element *)

(** X12.  The preview shows the markdown body exactly when the remote
    message has a text, and then once, with that text; it shows the avatar
    exactly when, in addition, the resolved avatar URL is not empty.  An
    avatar is never shown without a message. *)
Theorem preview_message_block {V} (settings : option (OrganizationSettings V))
    (props : Props) :
  let remote := settings ?. onboardingSettings ?. welcomeMessage in
  let page := elements (WelcomeMessagePreview.render settings props) in
  (∀ m, In (Markdown m) page ↔ remote ?. message = Some m ∧ m ≠ "")
  ∧ (∀ u, In (Img u) page
          ↔ remote ?. featuredMemberResolvedAvatarUrl = Some u ∧ u ≠ ""
            ∧ Js.truthy (remote ?. message) = true)
  ∧ length (List.filter is_message_block page)
    = (if Js.truthy (remote ?. message) then 1 else 0)
  ∧ length (List.filter is_markdown page)
    = (if Js.truthy (remote ?. message) then 1 else 0).
Proof.
  intros remote page. subst page. unfold WelcomeMessagePreview.render. fold remote.
  destruct (remote ?. message) as [[|c m]|];
    destruct (remote ?. featuredMemberResolvedAvatarUrl) as [[|c' u]|];
    destruct props as [dis [[|]|] [|]]; simpl;
    (split; [intros ?; split; naive_solver|]);
    (split; [intros ?; split; naive_solver|]); done.
Qed.

(** X13.  The header of the preview: the heading is there exactly when
    [hideHeader] is not set, the Edit button exactly when the callback is
    passed (and it carries the [disabled] prop), the subheading always, and
    there is no other heading, button or subheading. *)
Theorem preview_header {V} (settings : option (OrganizationSettings V)) (props : Props) :
  let page := elements (WelcomeMessagePreview.render settings props) in
  (∀ t, In (Heading2 t) page
        ↔ t = "Welcome to Gitpod" ∧ Js.nullish (hideHeader props) false = false)
  ∧ (∀ l d, In (Button l d) page
            ↔ l = "Edit" ∧ d = disabled props
              ∧ WelcomeMessagePreview.setWelcomeMessageEditorOpen props = true)
  ∧ (∀ t, In (Subheading t) page ↔ t = gitpodWelcomeSubheading).
Proof.
  intros page. subst page. unfold WelcomeMessagePreview.render.
  destruct (settings ?. onboardingSettings ?. welcomeMessage ?. message) as [[|c m]|];
    destruct (settings ?. onboardingSettings ?. welcomeMessage
                ?. featuredMemberResolvedAvatarUrl) as [[|c' u]|];
    destruct props as [dis [[|]|] [|]]; simpl;
    (split; [intros ?; split; naive_solver|]);
    (split; [intros ? ?; split; naive_solver|]);
    intros ?; split; naive_solver.
Qed.

(** ** The join modal, shown and dismissed *)

Lemma welcomeEnabled_true {V} (orgSettings : option (OrganizationSettings V)) :
  welcomeEnabled orgSettings = true
  ↔ enabled <$> orgSettings ?. onboardingSettings ?. welcomeMessage = Some true.
Proof.
  unfold welcomeEnabled.
  destruct (orgSettings ?. onboardingSettings ?. welcomeMessage) as [[[|] ? ? ?]|];
    simpl; split; naive_solver.
Qed.

(** X14.  A freshly mounted join modal is shown exactly when the welcome
    message is enabled and the storage holds the pending flag with the value
    "true"; without a storage it is never shown. *)
Theorem join_modal_shown_iff {V} (orgSettings : option (OrganizationSettings V))
    (storage : Storage) :
  shows orgSettings (mounted orgSettings storage).1 = true
  ↔ enabled <$> orgSettings ?. onboardingSettings ?. welcomeMessage = Some true
    ∧ storage ?. (λ items, items !! pendingKey) = Some "true".
Proof.
  rewrite <- welcomeEnabled_true.
  unfold shows, mounted, effect, OrganizationJoinModal.render.
  destruct (welcomeEnabled orgSettings); simpl; [|naive_solver].
  destruct storage as [items|]; simpl; [|naive_solver].
  rewrite bool_decide_eq_true. naive_solver.
Qed.

Lemma join_modal_shown_iff_witness :
  shows (Some Sample.snapshot)
    (mounted (Some Sample.snapshot)
       (Some {[ "newUserOnboardingPending" := "true" ]})).1 = true.
Proof.
  exact (proj2 (join_modal_shown_iff (Some Sample.snapshot)
                  (Some {[ "newUserOnboardingPending" := "true" ]}))
           (conj eq_refl eq_refl)).
Defined.

(** X15.  Dismissing the modal (Get Started, or closing it) is final: the
    pending flag is gone from the storage, the modal is not shown any more,
    neither by this instance nor by one mounted later, whatever the
    settings, and dismissing again changes nothing. *)
Theorem join_modal_dismiss_is_final {V} (st : OrganizationJoinModal.State)
    (storage : Storage) (later : option (OrganizationSettings V)) :
  let after := dismissOrgOnboardingPending (st, storage) in
  after.2 ?. (λ items, items !! pendingKey) = None
  ∧ shows later after.1 = false
  ∧ shows later (mounted later after.2).1 = false
  ∧ dismissOrgOnboardingPending after = after.
Proof.
  intros after. split; [|split; [|split]].
  - destruct storage as [items|]; [|done]. simpl. apply lookup_delete_eq.
  - by apply shows_not_pending.
  - apply shows_not_pending. unfold mounted, effect.
    destruct (welcomeEnabled later); [|done]. apply mount_after_dismiss.
  - unfold after, dismissOrgOnboardingPending. simpl. f_equal.
    destruct storage as [items|]; [|done]. simpl. f_equal.
    apply delete_id, lookup_delete_eq.
Qed.

(** X16.  The join modal touches one item of the storage only: mounting
    and dismissing leave every other item as it is and never create a
    storage; and while the welcome message is enabled, mounting leaves the
    whole storage as it is, the pending flag included. *)
Theorem join_modal_storage_frame {V} (orgSettings : option (OrganizationSettings V))
    (st : OrganizationJoinModal.State) (storage : Storage) (k : string) :
  k ≠ pendingKey →
  (mounted orgSettings storage).2 ?. (λ items, items !! k)
  = storage ?. (λ items, items !! k)
  ∧ (dismissOrgOnboardingPending (st, storage)).2 ?. (λ items, items !! k)
    = storage ?. (λ items, items !! k)
  ∧ ((mounted orgSettings storage).2 = None ↔ storage = None)
  ∧ (welcomeEnabled orgSettings = true → (mounted orgSettings storage).2 = storage).
Proof.
  intros Hk.
  assert (Hdismiss : ∀ st0, (dismissOrgOnboardingPending (st0, storage)).2
                            ?. (λ items, items !! k)
                            = storage ?. (λ items, items !! k)).
  { intros st0. destruct storage as [items|]; [|done]. simpl.
    by rewrite lookup_delete_ne. }
  unfold mounted, effect.
  destruct (welcomeEnabled orgSettings); cbn [negb].
  - split; [done|]. split; [apply (Hdismiss st)|]. done.
  - split; [apply (Hdismiss (OrganizationJoinModal.mount storage))|].
    split; [apply (Hdismiss st)|].
    split; [|done]. destruct storage; simpl; naive_solver.
Qed.

Lemma join_modal_storage_frame_witness :
  (mounted (Some Sample.snapshot_refetched)
     (Some {[ "newUserOnboardingPending" := "true"; "theme" := "dark" ]})).2
  ?. (λ items, items !! "theme")
  = Some "dark".
Proof.
  exact (proj1 (join_modal_storage_frame (Some Sample.snapshot_refetched)
                  {| orgOnboardingPending := true |}
                  (Some {[ "newUserOnboardingPending" := "true"; "theme" := "dark" ]})
                  "theme" ltac:(discriminate))).
Defined.



(** ** The earlier page: inline editor and avatar menu *)

(** X18.  On the earlier page a save submits an [onboardingSettings] that
    holds the welcome message only: the draft's text and featured member,
    the remote [enabled], and no resolved avatar URL; the other top-level
    fields are the snapshot's. *)
Theorem inline_save_submits_welcome_message_only {V} (env : Env V) (d : Draft) :
  let remote := remoteWelcomeMessage (settings env) in
  has_org_id env = true →
  isOwner env = true →
  ∃ merged,
    writes (trace (Inline.updateWelcomeMessage (handleUpdateTeamSettings env) remote d))
    = [merged]
    ∧ onboardingSettings merged
      = Some {| internalLink := None;
                welcomeMessage :=
                  Some {| enabled := Js.nullish (enabled <$> remote) false;
                          message := draftMessage d;
                          featuredMemberId := draftFeaturedMemberId d;
                          featuredMemberResolvedAvatarUrl := None |};
                recommendedRepositories := None |}
    ∧ ∀ k, otherFields merged !! k = topField k (settings env).
Proof.
  intros remote Horg Howner. eexists.
  split; [by apply handleUpdateTeamSettings_writes|].
  split; [by destruct (settings env)|].
  intros k. by apply spread_settings_field_omitted.
Qed.

Lemma inline_save_submits_welcome_message_only_witness :
  ∃ merged,
    writes (trace (Inline.updateWelcomeMessage (handleUpdateTeamSettings Sample.owner)
                     (Some Sample.greeting)
                     {| draftMessage := Some "Hi team!"; draftFeaturedMemberId := None |}))
    = [merged]
    ∧ onboardingSettings merged
      = Some {| internalLink := None;
                welcomeMessage :=
                  Some {| enabled := true;
                          message := Some "Hi team!";
                          featuredMemberId := None;
                          featuredMemberResolvedAvatarUrl := None |};
                recommendedRepositories := None |}
    ∧ ∀ k, otherFields merged !! k = topField k (Some Sample.snapshot).
Proof.
  exact (inline_save_submits_welcome_message_only Sample.owner
           {| draftMessage := Some "Hi team!"; draftFeaturedMemberId := None |}
           eq_refl eq_refl).
Defined.

Lemma clicks_snoc (its : list OrgMemberInput.Item) (item : OrgMemberInput.Item)
    (st : OrgMemberInput.State) :
  OrgMemberInput.clicks (its ++ [item]) st
  = OrgMemberInput.onClick item (OrgMemberInput.clicks its st).
Proof. unfold OrgMemberInput.clicks. by rewrite foldl_app. Qed.

Lemma clicks_keep_message (its : list OrgMemberInput.Item) (st : OrgMemberInput.State) :
  draftMessage (OrgMemberInput.draft (OrgMemberInput.clicks its st))
  = draftMessage (OrgMemberInput.draft st).
Proof.
  induction its as [|item its IH] using rev_ind; [done|].
  rewrite clicks_snoc, <- IH. by destruct item.
Qed.

(** X19.  The avatar menu follows the last click and nothing else: after
    "Disable image" there is no featured member and no photo; after a
    member's entry the featured member is that member and the photo is that
    member's, none when the member has no avatar URL.  The text of the draft
    is never touched by the menu. *)
Theorem avatar_menu_follows_last_click
    (members : option (list OrgMemberInput.OrganizationMember))
    (its : list OrgMemberInput.Item) (item : OrgMemberInput.Item)
    (st : OrgMemberInput.State) :
  In item (OrgMemberInput.items members) →
  let st' := OrgMemberInput.clicks (its ++ [item]) st in
  draftMessage (OrgMemberInput.draft st') = draftMessage (OrgMemberInput.draft st)
  ∧ ((item = OrgMemberInput.DisableImage
      ∧ draftFeaturedMemberId (OrgMemberInput.draft st') = None
      ∧ OrgMemberInput.avatarUrlCell st' = None
      ∧ OrgMemberInput.showsPhoto st' = false)
     ∨ (∃ ms member,
           members = Some ms ∧ In member ms
           ∧ item = OrgMemberInput.MemberItem member
           ∧ draftFeaturedMemberId (OrgMemberInput.draft st')
             = Some (OrgMemberInput.userId member)
           ∧ OrgMemberInput.avatarUrlCell st' = OrgMemberInput.avatarUrl member
           ∧ OrgMemberInput.showsPhoto st'
             = Js.truthy (OrgMemberInput.avatarUrl member))).
Proof.
  intros Hitem st'. split; [apply clicks_keep_message|].
  subst st'. rewrite clicks_snoc.
  destruct Hitem as [<-|Hitem]; [by left|]. right.
  destruct members as [ms|]; [|done].
  apply in_map_iff in Hitem as (member & <- & Hmember).
  by exists ms, member.
Qed.

Lemma avatar_menu_follows_last_click_witness :
  let st' := OrgMemberInput.clicks
               ([OrgMemberInput.MemberItem Sample.ada]
                ++ [OrgMemberInput.MemberItem Sample.bob])
               (OrgMemberInput.mount (Some Sample.greeting)) in
  draftMessage (OrgMemberInput.draft st') = Some "Welcome aboard!"
  ∧ draftFeaturedMemberId (OrgMemberInput.draft st') = Some "m2"
  ∧ OrgMemberInput.showsPhoto st' = false.
Proof.
  pose proof (avatar_menu_follows_last_click (Some [Sample.ada; Sample.bob])
                [OrgMemberInput.MemberItem Sample.ada]
                (OrgMemberInput.MemberItem Sample.bob)
                (OrgMemberInput.mount (Some Sample.greeting))
                (or_intror (or_intror (or_introl eq_refl)))) as [Hmessage _].
  split; [exact Hmessage|]. split; reflexivity.
Defined.

(** ** The controls *)


